(** * The ratio engine of the financial-statement analyser (src/python.py)

    The script reads a three-column balance sheet into a pandas DataFrame,
    lets [process_financial_data] add a growth column and two composition
    columns to it, and then derives the current ratio of both years from the
    processed frame.  This file embeds that computation:

    - numbers are binary64 floats ([PrimFloat.float], the kernel's IEEE 754
      doubles, which is what numpy's float64 and Python's float are);
    - a Python [str] is its sequence of code points;
    - a DataFrame is a finite map from column names to columns, a column
      being the list of its cells;
    - DataFrames are objects: the heap maps references to frames, and
      [df[col] = ...] updates the frame a reference points to;
    - Python exceptions are the [Raise] results of a state-and-error monad.

    Streamlit's [@st.cache_data] wrapper is left out: on a cache miss it runs
    the body below on the object it is called with. *)

From Stdlib Require Import ZArith NArith List String Ascii Floats.
From stdpp Require Import base option list gmap strings pretty.

#[local] Set Warnings "-inexact-float".
#[local] Open Scope float_scope.

(** ** Python strings *)

Module Text.

(** A [str] is a sequence of Unicode code points. *)
Abbreviation pystr := (list N).

(** The literals of the source are written here as Rocq strings, which hold
    the UTF-8 bytes of the file; [utf8] decodes them to code points.  [acc]
    is the code point under construction and [more] the number of
    continuation bytes it still expects. *)
Fixpoint utf8_from (acc : N) (more : nat) (s : string) : pystr :=
  match s with
  | EmptyString => []
  | String a s' =>
      let b := N_of_ascii a in
      match more with
      | O =>
          if (b <? 128)%N then b :: utf8_from 0 0 s'
          else if (b <? 224)%N then utf8_from (b - 192) 1 s'
          else if (b <? 240)%N then utf8_from (b - 224) 2 s'
          else utf8_from (b - 240) 3 s'
      | S O => (acc * 64 + (b - 128))%N :: utf8_from 0 0 s'
      | S more' => utf8_from (acc * 64 + (b - 128)) more' s'
      end
  end.

Definition utf8 (s : string) : pystr := utf8_from 0 0 s.

(** Lower-casing of one code point, as the regular-expression engine does
    it under [re.IGNORECASE].  The table covers the letters of the
    Vietnamese alphabet: Basic Latin, Latin-1, the six letters of Latin
    Extended-A/B it uses (A-breve, D-stroke, I-tilde, U-tilde, O-horn,
    U-horn) and the Latin Extended Additional block U+1EA0..U+1EF9, where
    every capital is followed by its small letter.  Other code points are
    left as they are. *)
Definition to_lower (c : N) : N :=
  if (65 <=? c)%N && (c <=? 90)%N then (c + 32)%N
  else if (192 <=? c)%N && (c <=? 222)%N && negb (c =? 215)%N then (c + 32)%N
  else if (c =? 258)%N || (c =? 272)%N || (c =? 296)%N || (c =? 360)%N
          || (c =? 416)%N || (c =? 431)%N then (c + 1)%N
  else if (7840 <=? c)%N && (c <=? 7929)%N && N.even c then (c + 1)%N
  else c.

(** [match_here pat s]: the literal pattern [pat] matches at the start of
    [s], letter case ignored. *)
Fixpoint match_here (pat s : pystr) : bool :=
  match pat, s with
  | [], _ => true
  | _ :: _, [] => false
  | p :: pat', c :: s' => (to_lower c =? to_lower p)%N && match_here pat' s'
  end.

(** [re.search] of a pattern without metacharacters, [re.IGNORECASE] set:
    the pattern matches at some position of [s]. *)
Fixpoint search (pat s : pystr) : bool :=
  match_here pat s
  || match s with
     | [] => false
     | _ :: s' => search pat s'
     end.

End Text.

Import Text.

(** ** Cells, exceptions and columns *)

(** A cell of a DataFrame read from a spreadsheet: text or a number.  A blank
    cell is the number NaN, and the entries of an integer column are
    represented by their doubles.  In a numeric column, text that spells a
    number is represented by that number, so that [Str] in such a column is
    text that [pd.to_numeric] cannot parse. *)
Inductive cell : Type :=
  | Str (s : pystr)
  | Num (x : float).

Inductive exn : Type :=
  | KeyError (col : string)
  | TypeError
  | IndexError
  | ZeroDivisionError
  | ValueError (msg : string).

Inductive result (A : Type) : Type :=
  | Ok (a : A)
  | Raise (e : exn).

Arguments Ok {A} a.
Arguments Raise {A} e.

#[global] Instance result_ret : MRet result := fun A a => Ok a.
#[global] Instance result_bind : MBind result := fun A B f r =>
  match r with
  | Ok a => f a
  | Raise e => Raise e
  end.

(** [pd.to_numeric(..., errors='coerce')] on one cell. *)
Definition to_numeric (c : cell) : float :=
  match c with
  | Num x => x
  | Str _ => nan
  end.

(** [.fillna(v)] on one value. *)
Definition fillna (v x : float) : float :=
  if is_nan x then v else x.

(** Line 66 on one cell: [pd.to_numeric(..., errors='coerce').fillna(0)]. *)
Definition coerce (c : cell) : float := fillna 0 (to_numeric c).

(** [Series.replace(old, new)] on one cell: numeric equality, so that both
    zeros are replaced when [old] is 0. *)
Definition replace (old new : float) (c : cell) : cell :=
  match c with
  | Num x => if (x =? old) then Num new else c
  | Str _ => c
  end.

(** Arithmetic on two cells; text operands raise. *)
Definition arith (op : float -> float -> float) (a b : cell) : result cell :=
  match a, b with
  | Num x, Num y => Ok (Num (op x y))
  | _, _ => Raise TypeError
  end.

(** Element-wise arithmetic of two columns of one frame. *)
Fixpoint series_op (op : float -> float -> float) (l k : list cell)
  : result (list cell) :=
  match l, k with
  | a :: l', b :: k' =>
      c ← arith op a b; r ← series_op op l' k'; mret (c :: r)
  | _, _ => mret []
  end.

(** Arithmetic of a column and a scalar. *)
Fixpoint series_scalar (op : float -> float -> float) (l : list cell) (b : cell)
  : result (list cell) :=
  match l with
  | a :: l' => c ← arith op a b; r ← series_scalar op l' b; mret (c :: r)
  | [] => mret []
  end.

(** [x != 0] on a cell. *)
Definition ne0 (c : cell) : bool :=
  match c with
  | Num x => negb (x =? 0)
  | Str _ => true
  end.

(** [Series.str.contains(pat, case=False, na=False)] on one cell. *)
Definition str_contains (pat : pystr) (c : cell) : bool :=
  match c with
  | Str s => search pat s
  | Num _ => false
  end.

(** Boolean indexing: the entries of [l] whose mask bit is set. *)
Fixpoint select {A : Type} (mask : list bool) (l : list A) : list A :=
  match mask, l with
  | b :: mask', x :: l' => if b then x :: select mask' l' else select mask' l'
  | _, _ => []
  end.

(** [.iloc[0]]. *)
Definition iloc0 (l : list cell) : result cell :=
  match l with
  | x :: _ => Ok x
  | [] => Raise IndexError
  end.

(** ** DataFrames on the heap *)

Abbreviation frame := (gmap string (list cell)).
Abbreviation loc := positive.
Abbreviation heap := (gmap loc frame).

(** [DataFrame.empty]: no column has an entry. *)
Definition frame_empty (df : frame) : bool :=
  bool_decide (map_Forall (fun _ s => length s = 0%nat) df).

(** Computations that read and update the heap and may raise. *)
Definition M (A : Type) : Type := heap -> heap * result A.

#[global] Instance M_ret : MRet M := fun A a h => (h, Ok a).
#[global] Instance M_bind : MBind M := fun A B f m h =>
  match m h with
  | (h', Ok a) => f a h'
  | (h', Raise e) => (h', Raise e)
  end.

Definition raise {A : Type} (e : exn) : M A := fun h => (h, Raise e).

Definition lift {A : Type} (r : result A) : M A := fun h => (h, r).

(** [df[col]] *)
Definition getitem (df : loc) (col : string) : M (list cell) := fun h =>
  match (h !!! df) !! col with
  | Some s => (h, Ok s)
  | None => (h, Raise (KeyError col))
  end.

(** [df[col] = s] *)
Definition setitem (df : loc) (col : string) (s : list cell) : M unit := fun h =>
  (<[df := <[col := s]> (h !!! df)]> h, Ok tt).

(** [df[mask]]: a new frame, the rows of [df] whose mask bit is set. *)
Definition getitem_mask (df : loc) (mask : list bool) : M frame := fun h =>
  (h, Ok (select mask <$> (h !!! df))).

(** Column [col] of a frame value. *)
Definition column (fr : frame) (col : string) : result (list cell) :=
  match fr !! col with
  | Some s => Ok s
  | None => Raise (KeyError col)
  end.

(** [df.copy()]: a new object with the same contents. *)
Definition copy (df : loc) : M loc := fun h =>
  let l := fresh (dom h) in (<[l := h !!! df]> h, Ok l).

Fixpoint for_ {A : Type} (l : list A) (body : A -> M unit) : M unit :=
  match l with
  | [] => mret tt
  | x :: l' => body x ;; for_ l' body
  end.

(** ** The program *)

Definition chi_tieu : string := "Chỉ tiêu".
Definition nam_truoc : string := "Năm trước".
Definition nam_sau : string := "Năm sau".
Definition toc_do_tang_truong : string := "Tốc độ tăng trưởng (%)".
Definition ty_trong_nam_truoc : string := "Tỷ trọng Năm trước (%)".
Definition ty_trong_nam_sau : string := "Tỷ trọng Năm sau (%)".

Definition TONG_CONG_TAI_SAN : pystr := Eval vm_compute in utf8 "TỔNG CỘNG TÀI SẢN".
Definition TAI_SAN_NGAN_HAN : pystr := Eval vm_compute in utf8 "TÀI SẢN NGẮN HẠN".
Definition NO_NGAN_HAN : pystr := Eval vm_compute in utf8 "NỢ NGẮN HẠN".

Definition numeric_cols : list string := [nam_truoc; nam_sau].

(** Lines 58-96. *)
Definition process_financial_data (df : loc) : M loc :=
  for_ numeric_cols (fun col =>
    s ← getitem df col;
    setitem df col (map (fun c => Num (coerce c)) s)) ;;
  sau ← getitem df nam_sau;
  truoc ← getitem df nam_truoc;
  d ← lift (series_op PrimFloat.sub sau truoc);
  truoc' ← getitem df nam_truoc;
  q ← lift (series_op PrimFloat.div d (map (replace 0 1e-9) truoc'));
  g ← lift (series_scalar PrimFloat.mul q (Num 100));
  setitem df toc_do_tang_truong g ;;
  labels ← getitem df chi_tieu;
  tong_tai_san_row ← getitem_mask df (map (str_contains TONG_CONG_TAI_SAN) labels);
  if frame_empty tong_tai_san_row
  then raise (ValueError "Không tìm thấy chỉ tiêu 'TỔNG CỘNG TÀI SẢN'.")
  else
    tong_tai_san_N_1 ← lift (column tong_tai_san_row nam_truoc ≫= iloc0);
    tong_tai_san_N ← lift (column tong_tai_san_row nam_sau ≫= iloc0);
    let divisor_N_1 := if ne0 tong_tai_san_N_1 then tong_tai_san_N_1 else Num 1e-9 in
    let divisor_N := if ne0 tong_tai_san_N then tong_tai_san_N else Num 1e-9 in
    truoc ← getitem df nam_truoc;
    q ← lift (series_scalar PrimFloat.div truoc divisor_N_1);
    w ← lift (series_scalar PrimFloat.mul q (Num 100));
    setitem df ty_trong_nam_truoc w ;;
    sau ← getitem df nam_sau;
    q ← lift (series_scalar PrimFloat.div sau divisor_N);
    w ← lift (series_scalar PrimFloat.mul q (Num 100));
    setitem df ty_trong_nam_sau w ;;
    mret df.

(** Lines 137-140: the uploaded sheet, one [row] per line item, as the frame
    of the three columns the script names. *)
Record row : Type := Row { label : cell; prior : cell; current : cell }.

Definition table (rows : list row) : frame :=
  <[chi_tieu := map label rows]>
    (<[nam_truoc := map prior rows]>
       (<[nam_sau := map current rows]> ∅)).

(** [try: body except IndexError / ZeroDivisionError: handler]. *)
Definition try_except {A : Type} (body : M A) (handler : M A) : M A := fun h =>
  match body h with
  | (h', Raise IndexError) | (h', Raise ZeroDivisionError) => handler h'
  | r => r
  end.

Definition NA : cell := Str (utf8 "N/A").

(** [df[df['Chỉ tiêu'].str.contains(pat, case=False, na=False)][col].iloc[0]] *)
Definition first_match (df : loc) (pat : pystr) (col : string) : M cell :=
  labels ← getitem df chi_tieu;
  rows ← getitem_mask df (map (str_contains pat) labels);
  lift (column rows col ≫= iloc0).

(** Lines 160-202, the current-ratio block: the values of
    [thanh_toan_hien_hanh_N] and [thanh_toan_hien_hanh_N_1] when it is left.
    Both are still "N/A" when a lookup raises, since the lookups come before
    the assignments. *)
Definition thanh_toan_hien_hanh (df_processed : loc) : M (cell * cell) :=
  let thanh_toan_hien_hanh_N := NA in
  let thanh_toan_hien_hanh_N_1 := NA in
  try_except
    (tsnh_n ← first_match df_processed TAI_SAN_NGAN_HAN nam_sau;
     tsnh_n_1 ← first_match df_processed TAI_SAN_NGAN_HAN nam_truoc;
     no_ngan_han_N ← first_match df_processed NO_NGAN_HAN nam_sau;
     no_ngan_han_N_1 ← first_match df_processed NO_NGAN_HAN nam_truoc;
     thanh_toan_hien_hanh_N ←
       (if ne0 no_ngan_han_N
        then lift (arith PrimFloat.div tsnh_n no_ngan_han_N)
        else mret thanh_toan_hien_hanh_N);
     thanh_toan_hien_hanh_N_1 ←
       (if ne0 no_ngan_han_N_1
        then lift (arith PrimFloat.div tsnh_n_1 no_ngan_han_N_1)
        else mret thanh_toan_hien_hanh_N_1);
     mret (thanh_toan_hien_hanh_N, thanh_toan_hien_hanh_N_1))
    (mret (thanh_toan_hien_hanh_N, thanh_toan_hien_hanh_N_1)).

(** Line 143 and the block after it:
    [df_processed = process_financial_data(df_raw.copy())], then the ratios. *)
Definition analyse (df_raw : loc) : M (loc * (cell * cell)) :=
  c ← copy df_raw;
  df_processed ← process_financial_data c;
  r ← thanh_toan_hien_hanh df_processed;
  mret (df_processed, r).

(** ** The formulas of the specification *)

(** [safeDivisor(x) = x] if [x ≠ 0], else the fixed epsilon. *)
Definition safeDivisor (x : float) : float := if (x =? 0) then 1e-9 else x.

(** [growthPct = (current - prior) / safeDivisor(prior) * 100]. *)
Definition growthPct (r : row) : float :=
  (coerce (current r) - coerce (prior r)) / safeDivisor (coerce (prior r)) * 100.

(** [priorSharePct = priorValue / safeDivisor(priorAnchor) * 100]. *)
Definition priorSharePct (a r : row) : float :=
  coerce (prior r) / safeDivisor (coerce (prior a)) * 100.

(** [currentSharePct = currentValue / safeDivisor(currentAnchor) * 100]. *)
Definition currentSharePct (a r : row) : float :=
  coerce (current r) / safeDivisor (coerce (current a)) * 100.

(** A row whose label contains the anchor term [pat]. *)
Definition is_anchor (pat : pystr) (r : row) : bool := str_contains pat (label r).

(** The frame after line 66: both numeric columns coerced. *)
Definition coerced (rows : list row) : frame :=
  <[nam_sau := map (fun r => Num (coerce (current r))) rows]>
    (<[nam_truoc := map (fun r => Num (coerce (prior r))) rows]> (table rows)).

(** The frame after line 72: the growth column added. *)
Definition with_growth (rows : list row) : frame :=
  <[toc_do_tang_truong := map (fun r => Num (growthPct r)) rows]> (coerced rows).

(** The frame after line 93: the two share columns added, anchor row [a]. *)
Definition enriched (a : row) (rows : list row) : frame :=
  <[ty_trong_nam_sau := map (fun r => Num (currentSharePct a r)) rows]>
    (<[ty_trong_nam_truoc := map (fun r => Num (priorSharePct a r)) rows]>
       (with_growth rows)).

Definition missing_anchor : exn :=
  ValueError "Không tìm thấy chỉ tiêu 'TỔNG CỘNG TÀI SẢN'.".

(** The current ratio of one period: unavailable ("N/A") when the
    liabilities are zero, the quotient otherwise. *)
Definition currentRatio (assets liabilities : float) : cell :=
  if (liabilities =? 0) then NA else Num (assets / liabilities).

(** A frame whose label column and coerced numeric columns are those of
    [rows]: what [process_financial_data] leaves behind. *)
Definition processed (rows : list row) (fr : frame) : Prop :=
  fr !! chi_tieu = Some (map label rows)
  /\ fr !! nam_truoc = Some (map (fun r => Num (coerce (prior r))) rows)
  /\ fr !! nam_sau = Some (map (fun r => Num (coerce (current r))) rows).

(** ** Example tables *)

(** The table of the specification's end-to-end example. *)
Definition example_en : list row :=
  [ Row (Str (utf8 "TOTAL CURRENT ASSETS")) (Num 100) (Num 150);
    Row (Str (utf8 "TOTAL CURRENT LIABILITIES")) (Num 50) (Num 0);
    Row (Str (utf8 "TOTAL ASSETS")) (Num 200) (Num 300) ].

(** The same table with labels that carry the terms the script searches for. *)
Definition example_vi : list row :=
  [ Row (Str (utf8 "TÀI SẢN NGẮN HẠN")) (Num 100) (Num 150);
    Row (Str (utf8 "NỢ NGẮN HẠN")) (Num 50) (Num 0);
    Row (Str (utf8 "TỔNG CỘNG TÀI SẢN")) (Num 200) (Num 300) ].

(** A table with a text cell and a blank cell in its numeric columns. *)
Definition example_blank : list row :=
  [ Row (Str (utf8 "TỔNG CỘNG TÀI SẢN")) (Num 200) (Num 300);
    Row (Str (utf8 "Ghi chú")) (Str (utf8 "-")) (Num nan) ].

(** A table whose first row starts from zero and holds a very large value. *)
Definition example_huge : list row :=
  [ Row (Str (utf8 "TÀI SẢN NGẮN HẠN")) (Num 0) (Num 1e300);
    Row (Str (utf8 "NỢ NGẮN HẠN")) (Num 1) (Num 1e-10);
    Row (Str (utf8 "TỔNG CỘNG TÀI SẢN")) (Num 1) (Num 1e300) ].

(** A table in which two labels contain the total-assets term. *)
Definition example_two_totals : list row :=
  [ Row (Str (utf8 "TỔNG CỘNG TÀI SẢN NGẮN HẠN")) (Num 100) (Num 150);
    Row (Str (utf8 "TỔNG CỘNG TÀI SẢN (A+B)")) (Num 200) (Num 300) ].

(** A table with a line item that starts from zero. *)
Definition example_new_item : list row :=
  [ Row (Str (utf8 "Đầu tư tài chính")) (Num 0) (Num 150);
    Row (Str (utf8 "TỔNG CỘNG TÀI SẢN")) (Num 200) (Num 300) ].

(** A table whose total row is labelled "TỔNG CỘNG TÀI SẢN (A+B)". *)
Definition example_a_plus_b : list row :=
  [ Row (Str (utf8 "TÀI SẢN NGẮN HẠN")) (Num 100) (Num 150);
    Row (Str (utf8 "TỔNG CỘNG TÀI SẢN (A+B)")) (Num 200) (Num 300) ].


(** ** The rest of the upload branch *)

(** Line 221: the growth of the first current-assets row, read for the
    summary that goes to the model. *)
Definition tang_truong_tsnh (df_processed : loc) : M cell :=
  first_match df_processed TAI_SAN_NGAN_HAN toc_do_tang_truong.





(** ** The chat of the sidebar (lines 29-31 and 246-284) *)

(** An entry of [st.session_state.chat_messages]. *)
Record message : Type := Message { role : string; content : string }.

(** What [CHAT_SESSION.send_message(prompt)] did: the text of its response,
    or the exception it raised, as [str] shows it. *)
Inductive reply : Type :=
  | Answer (text : string)
  | Failure (e : string).

(** One run of the sidebar: [session] tells whether [CHAT_SESSION] is there,
    [prompt] is what [st.chat_input] returned. *)
Definition sidebar (session : bool) (prompt : option string) (r : reply)
    (chat_messages : list message) : list message :=
  if session then
    match prompt with
    | Some (String _ _ as prompt) =>
        let chat_messages := chat_messages ++ [Message "user" prompt] in
        match r with
        | Answer full_response =>
            chat_messages ++ [Message "assistant" full_response]
        | Failure e =>
            let error_message :=
              "Lỗi: Không thể nhận phản hồi từ Gemini. Chi tiết: " +:+ e in
            chat_messages ++ [Message "assistant" error_message]
        end
    | _ => chat_messages
    end
  else chat_messages.

(** The history after a sequence of runs, from the empty list of line 31. *)
Definition history (session : bool) (runs : list (option string * reply))
  : list message :=
  foldl (fun msgs run => sidebar session run.1 run.2 msgs) [] runs.

(** Questions and replies alternate, and every question has its reply. *)
Definition paired (msgs : list message) : Prop :=
  Nat.even (length msgs) = true
  /\ forall i m, msgs !! i = Some m ->
       role m = if Nat.even i then "user" else "assistant".

(** ** Frames that hold a table *)

(** A frame whose three input columns are those of [rows], whatever other
    columns it has. *)
Definition holds (rows : list row) (fr : frame) : Prop :=
  fr !! chi_tieu = Some (map label rows)
  /\ fr !! nam_truoc = Some (map prior rows)
  /\ fr !! nam_sau = Some (map current rows).

(** What lines 66-72 and 92-93 write into a frame that holds [rows]. *)
Definition coerce_in (rows : list row) (fr : frame) : frame :=
  <[nam_sau := map (fun r => Num (coerce (current r))) rows]>
    (<[nam_truoc := map (fun r => Num (coerce (prior r))) rows]> fr).

Definition grow_in (rows : list row) (fr : frame) : frame :=
  <[toc_do_tang_truong := map (fun r => Num (growthPct r)) rows]>
    (coerce_in rows fr).

Definition enrich_in (a : row) (rows : list row) (fr : frame) : frame :=
  <[ty_trong_nam_sau := map (fun r => Num (currentSharePct a r)) rows]>
    (<[ty_trong_nam_truoc := map (fun r => Num (priorSharePct a r)) rows]>
       (grow_in rows fr)).

(** A row as it stands in a processed frame. *)
Definition coerced_row (r : row) : row :=
  Row (label r) (Num (coerce (prior r))) (Num (coerce (current r))).

(** The frame has no column [col]. *)
Definition lacks (fr : frame) (col : string) : bool :=
  match fr !! col with
  | Some _ => false
  | None => true
  end.

(** A cell that holds a number other than NaN. *)
Definition is_number (c : cell) : Prop :=
  exists x, c = Num x /\ is_nan x = false.

(** ** More example frames *)

(** A table whose total-assets row holds zero for the prior year. *)
Definition example_zero_total : list row :=
  [ Row (Str (utf8 "TỔNG CỘNG TÀI SẢN")) (Num 0) (Num 300);
    Row (Str (utf8 "TÀI SẢN NGẮN HẠN")) (Num 0) (Num 150) ].

(** A frame without 'Năm sau'. *)
Definition frame_no_nam_sau : frame :=
  <[chi_tieu := [Str (utf8 "TỔNG CỘNG TÀI SẢN")]]>
    (<[nam_truoc := [Str (utf8 "-")]]> ∅).

(** * Proofs *)

(** ** Columns of numbers *)

Section Columns.
Context {A : Type}.
Implicit Types (f g : A -> float) (l : list A).

Lemma series_op_map op f g l :
  series_op op (map (fun r => Num (f r)) l) (map (fun r => Num (g r)) l)
  = Ok (map (fun r => Num (op (f r) (g r))) l).
Proof.
  induction l as [|r l IH]; [reflexivity|].
  cbn [map series_op arith]. rewrite IH. reflexivity.
Qed.

Lemma series_scalar_map op f y l :
  series_scalar op (map (fun r => Num (f r)) l) (Num y)
  = Ok (map (fun r => Num (op (f r) y)) l).
Proof.
  induction l as [|r l IH]; [reflexivity|].
  cbn [map series_scalar arith]. rewrite IH. reflexivity.
Qed.

Lemma replace_zero_map f l :
  map (replace 0 1e-9) (map (fun r => Num (f r)) l)
  = map (fun r => Num (safeDivisor (f r))) l.
Proof.
  rewrite map_map. apply map_ext. intros r.
  unfold replace, safeDivisor. destruct (f r =? 0); reflexivity.
Qed.

Lemma select_map {B : Type} (p : A -> bool) (g : A -> B) l :
  select (map p l) (map g l) = map g (List.filter p l).
Proof.
  induction l as [|r l IH]; [reflexivity|].
  cbn [map select List.filter]. destruct (p r); cbn [map]; rewrite IH; reflexivity.
Qed.

Lemma select_no_match {B : Type} (p : A -> bool) l (k : list B) :
  List.find p l = None -> select (map p l) k = [].
Proof.
  revert k. induction l as [|r l IH]; intros k Hf; [reflexivity|].
  cbn [List.find] in Hf. destruct (p r) eqn:Hp; [discriminate|].
  cbn [map select]. rewrite Hp. destruct k; [reflexivity|]. apply IH, Hf.
Qed.

Lemma filter_find (p : A -> bool) l a :
  List.find p l = Some a -> exists l', List.filter p l = a :: l'.
Proof.
  induction l as [|r l IH]; [discriminate|].
  cbn [List.find List.filter]. destruct (p r).
  - intros [= ->]. eauto.
  - apply IH.
Qed.

End Columns.

(** ** Running the program *)

Ltac col_ne :=
  unfold chi_tieu, nam_truoc, nam_sau, toc_do_tang_truong,
    ty_trong_nam_truoc, ty_trong_nam_sau; discriminate.

Ltac frame_lookup :=
  unfold enriched, with_growth, coerced, table;
  repeat first [ rewrite lookup_insert_eq
               | rewrite lookup_insert_ne by col_ne
               | rewrite lookup_empty ];
  try reflexivity.

Lemma bind_run {A B : Type} (m : M A) (f : A -> M B) (h : heap) :
  (m ≫= f) h
  = match m h with
    | (h', Ok a) => f a h'
    | (h', Raise e) => (h', Raise e)
    end.
Proof. reflexivity. Qed.

Lemma getitem_run df col (h : heap) (fr : frame) s :
  h !! df = Some fr -> fr !! col = Some s -> getitem df col h = (h, Ok s).
Proof.
  intros Hh Hc. unfold getitem. rewrite (lookup_total_correct _ _ _ Hh), Hc.
  reflexivity.
Qed.

Lemma setitem_run df col s (h : heap) (fr : frame) :
  h !! df = Some fr ->
  setitem df col s h = (<[df := <[col := s]> fr]> h, Ok tt).
Proof.
  intros Hh. unfold setitem. rewrite (lookup_total_correct _ _ _ Hh). reflexivity.
Qed.

Lemma getitem_mask_run df mask (h : heap) (fr : frame) :
  h !! df = Some fr -> getitem_mask df mask h = (h, Ok (select mask <$> fr)).
Proof.
  intros Hh. unfold getitem_mask. rewrite (lookup_total_correct _ _ _ Hh).
  reflexivity.
Qed.

Lemma coerce_loop_run df (h : heap) rows :
  h !! df = Some (table rows) ->
  for_ numeric_cols (fun col =>
    s ← getitem df col;
    setitem df col (map (fun c => Num (coerce c)) s)) h
  = (<[df := coerced rows]> h, Ok tt).
Proof.
  intros Hh. unfold numeric_cols. cbn [for_].
  rewrite bind_run, bind_run.
  rewrite (getitem_run df nam_truoc h (table rows) (map prior rows) Hh) by frame_lookup.
  rewrite (setitem_run _ _ _ _ _ Hh).
  rewrite bind_run, bind_run.
  erewrite getitem_run; [| apply lookup_insert_eq | frame_lookup].
  erewrite setitem_run; [| apply lookup_insert_eq].
  rewrite insert_insert_eq. rewrite !map_map. reflexivity.
Qed.

Lemma frame_empty_select (p : row -> bool) rows (fr : frame) col (g : row -> cell) :
  fr !! col = Some (map g rows) ->
  frame_empty (select (map p rows) <$> fr)
  = match List.find p rows with
    | None => true
    | Some _ => false
    end.
Proof.
  intros Hc. unfold frame_empty. destruct (List.find p rows) as [a|] eqn:Hf.
  - apply bool_decide_eq_false. intros Hall.
    specialize (Hall col (select (map p rows) (map g rows))).
    rewrite lookup_fmap, Hc in Hall. specialize (Hall eq_refl).
    rewrite select_map in Hall.
    destruct (filter_find _ _ _ Hf) as [l' Hl']. rewrite Hl' in Hall.
    discriminate Hall.
  - apply bool_decide_eq_true. intros k s. rewrite lookup_fmap.
    destruct (fr !! k) as [s0|]; [|discriminate]. intros [= <-].
    rewrite (select_no_match _ _ _ Hf). reflexivity.
Qed.

Lemma column_select (p : row -> bool) rows (fr : frame) col (g : row -> cell) :
  fr !! col = Some (map g rows) ->
  column (select (map p rows) <$> fr) col = Ok (map g (List.filter p rows)).
Proof.
  intros Hc. unfold column. rewrite lookup_fmap, Hc. cbn. rewrite select_map.
  reflexivity.
Qed.

Lemma divisor_safe x :
  (if ne0 (Num x) then Num x else Num 1e-9) = Num (safeDivisor x).
Proof. unfold ne0, safeDivisor. destruct (x =? 0); reflexivity. Qed.

Lemma process_financial_data_run df (h : heap) rows :
  h !! df = Some (table rows) ->
  process_financial_data df h
  = match List.find (is_anchor TONG_CONG_TAI_SAN) rows with
    | Some a => (<[df := enriched a rows]> h, Ok df)
    | None => (<[df := with_growth rows]> h, Raise missing_anchor)
    end.
Proof.
  intros Hh. unfold process_financial_data.
  rewrite bind_run, (coerce_loop_run _ _ _ Hh).
  assert (H1 : <[df := coerced rows]> h !! df = Some (coerced rows))
    by apply lookup_insert_eq.
  rewrite bind_run, (getitem_run _ _ _ _ _ H1) by frame_lookup.
  rewrite bind_run, (getitem_run _ _ _ _ _ H1) by frame_lookup.
  rewrite bind_run. unfold lift at 1. rewrite series_op_map.
  rewrite bind_run, (getitem_run _ _ _ _ _ H1) by frame_lookup.
  rewrite bind_run. unfold lift at 1. rewrite replace_zero_map, series_op_map.
  rewrite bind_run. unfold lift at 1. rewrite series_scalar_map.
  rewrite bind_run, (setitem_run _ _ _ _ _ H1), insert_insert_eq.
  change (<[toc_do_tang_truong := _]> (coerced rows)) with (with_growth rows).
  assert (H2 : <[df := with_growth rows]> h !! df = Some (with_growth rows))
    by apply lookup_insert_eq.
  rewrite bind_run, (getitem_run _ _ _ _ _ H2) by frame_lookup.
  rewrite bind_run, (getitem_mask_run _ _ _ _ H2), map_map.
  change (fun x => str_contains TONG_CONG_TAI_SAN (label x))
    with (is_anchor TONG_CONG_TAI_SAN).
  rewrite (frame_empty_select _ rows _ chi_tieu label) by frame_lookup.
  destruct (List.find (is_anchor TONG_CONG_TAI_SAN) rows) as [a|] eqn:Hf;
    [|reflexivity].
  destruct (filter_find _ _ _ Hf) as [l' Hl'].
  rewrite bind_run. unfold lift at 1.
  rewrite (column_select _ rows _ nam_truoc (fun r => Num (coerce (prior r))))
    by frame_lookup.
  rewrite Hl'. cbn [map mbind result_bind iloc0].
  rewrite bind_run. unfold lift at 1.
  rewrite (column_select _ rows _ nam_sau (fun r => Num (coerce (current r))))
    by frame_lookup.
  rewrite Hl'. cbn [map mbind result_bind iloc0].
  rewrite !divisor_safe.
  rewrite bind_run, (getitem_run _ _ _ _ _ H2) by frame_lookup.
  rewrite bind_run. unfold lift at 1. rewrite series_scalar_map.
  rewrite bind_run. unfold lift at 1. rewrite series_scalar_map.
  rewrite bind_run, (setitem_run _ _ _ _ _ H2), insert_insert_eq.
  match goal with |- context [<[df := ?fr]> h] =>
    assert (H3 : <[df := fr]> h !! df = Some fr) by apply lookup_insert_eq
  end.
  rewrite bind_run, (getitem_run _ _ _ _ _ H3) by frame_lookup.
  rewrite bind_run. unfold lift at 1. rewrite series_scalar_map.
  rewrite bind_run. unfold lift at 1. rewrite series_scalar_map.
  rewrite bind_run, (setitem_run _ _ _ _ _ H3), insert_insert_eq.
  reflexivity.
Qed.

Lemma processed_enriched a rows : processed rows (enriched a rows).
Proof. repeat split; frame_lookup. Qed.

Lemma first_match_run df pat col (g : row -> cell) (h : heap) (fr : frame) rows :
  h !! df = Some fr ->
  fr !! chi_tieu = Some (map label rows) ->
  fr !! col = Some (map g rows) ->
  first_match df pat col h
  = (h, match List.find (is_anchor pat) rows with
        | Some a => Ok (g a)
        | None => Raise IndexError
        end).
Proof.
  intros Hh Hl Hc. unfold first_match.
  rewrite bind_run, (getitem_run _ _ _ _ _ Hh Hl).
  rewrite bind_run, (getitem_mask_run _ _ _ _ Hh), map_map.
  change (fun x => str_contains pat (label x)) with (is_anchor pat).
  unfold lift. rewrite (column_select _ rows _ col g Hc).
  destruct (List.find (is_anchor pat) rows) as [a|] eqn:Hf.
  - destruct (filter_find _ _ _ Hf) as [l' ->]. reflexivity.
  - assert (List.filter (is_anchor pat) rows = []) as ->; [|reflexivity].
    clear -Hf. induction rows as [|r rows IH]; [reflexivity|].
    cbn [List.find List.filter] in *. destruct (is_anchor pat r); [discriminate|].
    apply IH, Hf.
Qed.

Lemma ratio_step x y :
  (if ne0 (Num y) then lift (arith PrimFloat.div (Num x) (Num y)) else mret NA)
  = (mret (currentRatio x y) : M cell).
Proof. unfold ne0, currentRatio. destruct (y =? 0); reflexivity. Qed.

Lemma thanh_toan_hien_hanh_run df (h : heap) (fr : frame) rows :
  h !! df = Some fr -> processed rows fr ->
  thanh_toan_hien_hanh df h
  = (h, Ok match List.find (is_anchor TAI_SAN_NGAN_HAN) rows,
                 List.find (is_anchor NO_NGAN_HAN) rows with
           | Some ts, Some no =>
               (currentRatio (coerce (current ts)) (coerce (current no)),
                currentRatio (coerce (prior ts)) (coerce (prior no)))
           | _, _ => (NA, NA)
           end).
Proof.
  intros Hh (Hl & Hp & Hc). unfold thanh_toan_hien_hanh, try_except.
  match goal with |- context [let (_, _) := ?body h in _] =>
    assert (Hbody : body h
      = (h, match List.find (is_anchor TAI_SAN_NGAN_HAN) rows,
                  List.find (is_anchor NO_NGAN_HAN) rows with
            | Some ts, Some no =>
                Ok (currentRatio (coerce (current ts)) (coerce (current no)),
                    currentRatio (coerce (prior ts)) (coerce (prior no)))
            | _, _ => Raise IndexError
            end))
  end.
  { rewrite bind_run, (first_match_run _ _ _ _ _ _ _ Hh Hl Hc).
    destruct (List.find (is_anchor TAI_SAN_NGAN_HAN) rows) as [ts|] eqn:Hts;
      [|reflexivity].
    rewrite bind_run, (first_match_run _ _ _ _ _ _ _ Hh Hl Hp), Hts.
    rewrite bind_run, (first_match_run _ _ _ _ _ _ _ Hh Hl Hc).
    destruct (List.find (is_anchor NO_NGAN_HAN) rows) as [no|] eqn:Hno;
      [|reflexivity].
    rewrite bind_run, (first_match_run _ _ _ _ _ _ _ Hh Hl Hp), Hno.
    rewrite !ratio_step. reflexivity. }
  rewrite Hbody.
  destruct (List.find (is_anchor TAI_SAN_NGAN_HAN) rows) as [ts|]; [|reflexivity].
  destruct (List.find (is_anchor NO_NGAN_HAN) rows) as [no|]; reflexivity.
Qed.

(** ** The first matching row *)

Section FirstMatch.
Context {A : Type} (p : A -> bool).
Implicit Types (l : list A) (a : A).

Lemma find_first l a :
  List.find p l = Some a ->
  exists k, l !! k = Some a /\ p a = true
    /\ forall j b, (j < k)%nat -> l !! j = Some b -> p b = false.
Proof.
  induction l as [|r l IH]; [discriminate|].
  cbn [List.find]. destruct (p r) eqn:Hr.
  - intros [= ->]. exists 0%nat. repeat split; [assumption|]. intros j b Hj. lia.
  - intros Hf. destruct (IH Hf) as (k & Hk & Hp & Hmin).
    exists (S k). repeat split; [assumption..|].
    intros [|j] b Hj Hb.
    + injection Hb as <-. assumption.
    + apply (Hmin j); [lia | assumption].
Qed.

Lemma first_find l k a :
  l !! k = Some a -> p a = true ->
  (forall j b, (j < k)%nat -> l !! j = Some b -> p b = false) ->
  List.find p l = Some a.
Proof.
  revert k. induction l as [|r l IH]; intros k Hk Hp Hmin; [discriminate|].
  cbn [List.find]. destruct k as [|k].
  - injection Hk as ->. rewrite Hp. reflexivity.
  - rewrite (Hmin 0%nat r) by (lia || reflexivity).
    apply (IH k); [assumption..|].
    intros j b Hj Hb. apply (Hmin (S j)); [lia | assumption].
Qed.


Lemma find_match l a : In a l -> p a = true -> exists b, List.find p l = Some b.
Proof.
  induction l as [|r l IH]; intros Hin Hp; [destruct Hin|].
  cbn [List.find]. destruct (p r) eqn:Hr; [eauto|].
  destruct Hin as [->|Hin]; [congruence|]. apply IH; assumption.
Qed.

End FirstMatch.

(** ** Reading the processed frame *)

Lemma lookup_map_row {B : Type} (g : row -> B) (rows : list row) i r :
  rows !! i = Some r -> map g rows !! i = Some (g r).
Proof. intros Hi. change (map g rows) with (g <$> rows). rewrite list_lookup_fmap, Hi. reflexivity. Qed.

Lemma enriched_row a rows i r :
  rows !! i = Some r ->
  exists g w1 w2,
    enriched a rows !! toc_do_tang_truong = Some g
    /\ enriched a rows !! ty_trong_nam_truoc = Some w1
    /\ enriched a rows !! ty_trong_nam_sau = Some w2
    /\ g !! i = Some (Num (growthPct r))
    /\ w1 !! i = Some (Num (priorSharePct a r))
    /\ w2 !! i = Some (Num (currentSharePct a r)).
Proof.
  intros Hi. do 3 eexists.
  split; [frame_lookup|]. split; [frame_lookup|]. split; [frame_lookup|].
  split; [|split].
  - apply (lookup_map_row (fun r => Num (growthPct r)) _ _ _ Hi).
  - apply (lookup_map_row (fun r => Num (priorSharePct a r)) _ _ _ Hi).
  - apply (lookup_map_row (fun r => Num (currentSharePct a r)) _ _ _ Hi).
Qed.

Lemma process_financial_data_Ok df (h h' : heap) rows res :
  h !! df = Some (table rows) ->
  process_financial_data df h = (h', Ok res) ->
  exists a,
    List.find (is_anchor TONG_CONG_TAI_SAN) rows = Some a
    /\ res = df /\ h' = <[df := enriched a rows]> h.
Proof.
  intros Hh Hrun. rewrite (process_financial_data_run _ _ _ Hh) in Hrun.
  destruct (List.find (is_anchor TONG_CONG_TAI_SAN) rows) as [a|]; [|discriminate].
  injection Hrun as <- <-. eauto.
Qed.

(** ** Binary64 facts *)



Lemma eqb_zero_inv x : (x =? 0) = true -> x = 0 \/ x = (-0).
Proof.
  intros H. rewrite FloatAxioms.eqb_spec in H.
  rewrite <- (FloatAxioms.SF2Prim_Prim2SF x).
  destruct (Prim2SF x) as [[]|[]| |[] m e]; try discriminate H;
    [right | left]; reflexivity.
Qed.

Lemma coerce_not_nan c : is_nan (coerce c) = false.
Proof.
  unfold coerce, fillna. destruct (is_nan (to_numeric c)) eqn:Hn;
    [reflexivity | assumption].
Qed.

Lemma growth_zero_zero p c :
  (p =? 0) = true -> (c =? 0) = true ->
  ((c - p) / 1e-9 * 100 =? 0) = true /\ is_nan ((c - p) / 1e-9 * 100) = false.
Proof.
  intros Hp Hc.
  destruct (eqb_zero_inv _ Hp) as [-> | ->], (eqb_zero_inv _ Hc) as [-> | ->];
    split; reflexivity.
Qed.

Section Rounding.
Variables prec emax : Z.








End Rounding.


(** ** Case-insensitive search *)

Lemma match_here_fold pat pat' s s' :
  map to_lower pat = map to_lower pat' ->
  map to_lower s = map to_lower s' ->
  match_here pat s = match_here pat' s'.
Proof.
  revert pat' s s'. induction pat as [|p pat IH]; intros [|p' pat'] s s' Hp Hs;
    try discriminate Hp; [reflexivity|].
  injection Hp as Hp Hpat.
  destruct s as [|c s], s' as [|c' s']; try discriminate Hs; [reflexivity|].
  injection Hs as Hc Hs. cbn [match_here]. rewrite Hp, Hc, (IH pat' s s'); auto.
Qed.

Lemma search_fold pat pat' s s' :
  map to_lower pat = map to_lower pat' ->
  map to_lower s = map to_lower s' ->
  search pat s = search pat' s'.
Proof.
  intros Hp. revert s'. induction s as [|c s IH]; intros [|c' s'] Hs;
    try discriminate Hs; cbn [search].
  - rewrite (match_here_fold pat pat' [] []); auto.
  - rewrite (match_here_fold pat pat' (c :: s) (c' :: s')); auto.
    injection Hs as _ Hs. rewrite (IH s'); auto.
Qed.

Lemma match_here_prefix pat post : match_here pat (pat ++ post) = true.
Proof.
  induction pat as [|p pat IH]; [reflexivity|].
  cbn [app match_here]. rewrite N.eqb_refl. exact IH.
Qed.

Lemma search_substring pat pre post : search pat (pre ++ pat ++ post) = true.
Proof.
  induction pre as [|c pre IH].
  - cbn [app]. destruct (pat ++ post) eqn:E; cbn [search];
      rewrite <- E, match_here_prefix; reflexivity.
  - cbn [app search]. rewrite IH. apply orb_true_r.
Qed.

(** ** Objects *)



(** ** The current-ratio block *)

Lemma currentRatio_NA x y : currentRatio x y = NA <-> (y =? 0) = true.
Proof.
  unfold currentRatio. destruct (y =? 0); split; intros H;
    try reflexivity; discriminate H.
Qed.

(** * The properties of the specification *)

(** C1, as the program has it: on the example table labelled with the terms
    the script searches for, row 1 has growth 50 and shares 50 and 50, the
    prior-year current ratio is 2 and the current-year one is "N/A". *)
Theorem example_end_to_end :
  exists h',
    analyse 1 {[1%positive := table example_vi]}
    = (h', Ok (2%positive, (NA, Num 2)))
    /\ (h' !!! 2%positive) !! toc_do_tang_truong = Some [Num 50; Num (-100); Num 50]
    /\ (h' !!! 2%positive) !! ty_trong_nam_truoc = Some [Num 50; Num 25; Num 100]
    /\ (h' !!! 2%positive) !! ty_trong_nam_sau = Some [Num 50; Num 0; Num 100].
Proof. eexists. repeat split; vm_compute; reflexivity. Qed.

(** C1 as stated fails: no label of the English table contains
    'TỔNG CỘNG TÀI SẢN', so the call raises. *)
Lemma example_english_labels_raise :
  exists h',
    analyse 1 {[1%positive := table example_en]} = (h', Raise missing_anchor).
Proof. eexists. vm_compute. reflexivity. Qed.






(** C4, as the program has it: on the frame [process_financial_data]
    returned, the block always ends with a value for each period and leaves
    the heap alone.  A period's ratio is "N/A" exactly when the term for
    current assets or the one for current liabilities matches no row, or the
    first liabilities row is zero in that period; otherwise it is the binary64
    quotient of the first assets row by the first liabilities row, whatever
    the other period gives. *)
Theorem current_ratio_summary df (h h' : heap) rows res :
  h !! df = Some (table rows) ->
  process_financial_data df h = (h', Ok res) ->
  exists rN rN1,
    thanh_toan_hien_hanh res h' = (h', Ok (rN, rN1))
    /\ (rN = NA <->
        List.find (is_anchor TAI_SAN_NGAN_HAN) rows = None
        \/ List.find (is_anchor NO_NGAN_HAN) rows = None
        \/ exists no, List.find (is_anchor NO_NGAN_HAN) rows = Some no
                      /\ (coerce (current no) =? 0) = true)
    /\ (rN1 = NA <->
        List.find (is_anchor TAI_SAN_NGAN_HAN) rows = None
        \/ List.find (is_anchor NO_NGAN_HAN) rows = None
        \/ exists no, List.find (is_anchor NO_NGAN_HAN) rows = Some no
                      /\ (coerce (prior no) =? 0) = true)
    /\ forall ts no,
         List.find (is_anchor TAI_SAN_NGAN_HAN) rows = Some ts ->
         List.find (is_anchor NO_NGAN_HAN) rows = Some no ->
         ((coerce (current no) =? 0) = false ->
            rN = Num (coerce (current ts) / coerce (current no)))
         /\ ((coerce (prior no) =? 0) = false ->
               rN1 = Num (coerce (prior ts) / coerce (prior no))).
Proof.
  intros Hh Hrun.
  destruct (process_financial_data_Ok _ _ _ _ _ Hh Hrun) as (a & Hf & -> & ->).
  rewrite (thanh_toan_hien_hanh_run df _ (enriched a rows) rows
             (lookup_insert_eq _ _ _) (processed_enriched a rows)).
  destruct (List.find (is_anchor TAI_SAN_NGAN_HAN) rows) as [ts|].
  2:{ exists NA, NA. split; [reflexivity|].
      split; [tauto|]. split; [tauto|]. intros ts no [=]. }
  destruct (List.find (is_anchor NO_NGAN_HAN) rows) as [no|].
  2:{ exists NA, NA. split; [reflexivity|].
      split; [tauto|]. split; [tauto|]. intros ts' no [=] [=]. }
  do 2 eexists. split; [reflexivity|].
  split; [|split].
  - rewrite currentRatio_NA. split.
    + intros H. right. right. eauto.
    + intros [[=]|[[=]|(no' & [= <-] & H)]]. exact H.
  - rewrite currentRatio_NA. split.
    + intros H. right. right. eauto.
    + intros [[=]|[[=]|(no' & [= <-] & H)]]. exact H.
  - intros ts' no' [= <-] [= <-]. unfold currentRatio.
    split; intros ->; reflexivity.
Qed.

Lemma current_ratio_summary_witness :
  exists rN rN1,
    thanh_toan_hien_hanh 1
      {[1%positive := enriched (Row (Str TONG_CONG_TAI_SAN) (Num 200) (Num 300))
                        example_vi]}
    = ({[1%positive := enriched (Row (Str TONG_CONG_TAI_SAN) (Num 200) (Num 300))
                         example_vi]}, Ok (rN, rN1))
    /\ (rN = NA <->
        List.find (is_anchor TAI_SAN_NGAN_HAN) example_vi = None
        \/ List.find (is_anchor NO_NGAN_HAN) example_vi = None
        \/ exists no, List.find (is_anchor NO_NGAN_HAN) example_vi = Some no
                      /\ (coerce (current no) =? 0) = true)
    /\ (rN1 = NA <->
        List.find (is_anchor TAI_SAN_NGAN_HAN) example_vi = None
        \/ List.find (is_anchor NO_NGAN_HAN) example_vi = None
        \/ exists no, List.find (is_anchor NO_NGAN_HAN) example_vi = Some no
                      /\ (coerce (prior no) =? 0) = true)
    /\ forall ts no,
         List.find (is_anchor TAI_SAN_NGAN_HAN) example_vi = Some ts ->
         List.find (is_anchor NO_NGAN_HAN) example_vi = Some no ->
         ((coerce (current no) =? 0) = false ->
            rN = Num (coerce (current ts) / coerce (current no)))
         /\ ((coerce (prior no) =? 0) = false ->
               rN1 = Num (coerce (prior ts) / coerce (prior no))).
Proof.
  apply (current_ratio_summary 1 {[1%positive := table example_vi]} _ example_vi 1).
  - reflexivity.
  - vm_compute. reflexivity.
Defined.

(** C4 as stated fails: with current assets 1e300 and current liabilities
    1e-10 the quotient is +infinity, not a finite number. *)
Lemma current_ratio_overflows :
  exists h',
    analyse 1 {[1%positive := table example_huge]}
    = (h', Ok (2%positive, (Num infinity, Num 0))).
Proof. eexists. vm_compute. reflexivity. Qed.

(** C5: in the frame [process_financial_data] returns, the growth of a row
    whose coerced prior-year value is not zero is
    [(current - prior) / prior * 100]. *)
Theorem growth_of_nonzero_prior df (h h' : heap) rows res i r :
  h !! df = Some (table rows) ->
  process_financial_data df h = (h', Ok res) ->
  rows !! i = Some r ->
  (coerce (prior r) =? 0) = false ->
  exists g,
    (h' !!! res) !! toc_do_tang_truong = Some g
    /\ g !! i
       = Some (Num ((coerce (current r) - coerce (prior r)) / coerce (prior r) * 100)).
Proof.
  intros Hh Hrun Hi Hp. rewrite (process_financial_data_run _ _ _ Hh) in Hrun.
  destruct (List.find (is_anchor TONG_CONG_TAI_SAN) rows) as [a|]; [|discriminate].
  injection Hrun as <- <-. rewrite lookup_total_insert_eq.
  eexists. split; [frame_lookup|].
  rewrite (lookup_map_row (fun r => Num (growthPct r)) _ _ _ Hi).
  unfold growthPct, safeDivisor. rewrite Hp. reflexivity.
Qed.

Lemma growth_of_nonzero_prior_witness :
  exists g,
    (({[1%positive := enriched (Row (Str TONG_CONG_TAI_SAN) (Num 200) (Num 300))
                        example_vi]} : heap) !!! 1%positive)
      !! toc_do_tang_truong = Some g
    /\ g !! 0%nat = Some (Num 50).
Proof.
  apply (growth_of_nonzero_prior 1 {[1%positive := table example_vi]} _ example_vi
           1 0 (Row (Str TAI_SAN_NGAN_HAN) (Num 100) (Num 150))).
  - reflexivity.
  - vm_compute. reflexivity.
  - reflexivity.
  - reflexivity.
Defined.




(** C7: the anchor is the first row whose label contains the total-assets
    term; each of its two values is guarded on its own, and every row's
    shares are its coerced values over those guarded anchors, times 100. *)
Theorem shares_of_first_anchor df (h h' : heap) rows res :
  h !! df = Some (table rows) ->
  process_financial_data df h = (h', Ok res) ->
  exists k a w1 w2,
    rows !! k = Some a
    /\ str_contains TONG_CONG_TAI_SAN (label a) = true
    /\ (forall j b, (j < k)%nat -> rows !! j = Some b ->
          str_contains TONG_CONG_TAI_SAN (label b) = false)
    /\ (h' !!! res) !! ty_trong_nam_truoc = Some w1
    /\ (h' !!! res) !! ty_trong_nam_sau = Some w2
    /\ forall i r, rows !! i = Some r ->
         w1 !! i
         = Some (Num (coerce (prior r) / safeDivisor (coerce (prior a)) * 100))
         /\ w2 !! i
            = Some (Num (coerce (current r) / safeDivisor (coerce (current a)) * 100)).
Proof.
  intros Hh Hrun.
  destruct (process_financial_data_Ok _ _ _ _ _ Hh Hrun) as (a & Hf & -> & ->).
  destruct (find_first _ _ _ Hf) as (k & Hk & Ha & Hmin).
  exists k, a. do 2 eexists. rewrite lookup_total_insert_eq.
  split; [exact Hk|]. split; [exact Ha|]. split; [exact Hmin|].
  split; [frame_lookup|]. split; [frame_lookup|].
  intros i r Hi. split.
  - apply (lookup_map_row (fun r => Num (priorSharePct a r)) _ _ _ Hi).
  - apply (lookup_map_row (fun r => Num (currentSharePct a r)) _ _ _ Hi).
Qed.

Lemma shares_of_first_anchor_witness :
  exists k a w1 w2,
    example_vi !! k = Some a
    /\ str_contains TONG_CONG_TAI_SAN (label a) = true
    /\ (forall j b, (j < k)%nat -> example_vi !! j = Some b ->
          str_contains TONG_CONG_TAI_SAN (label b) = false)
    /\ (({[1%positive := enriched (Row (Str TONG_CONG_TAI_SAN) (Num 200) (Num 300))
                           example_vi]} : heap) !!! 1%positive)
         !! ty_trong_nam_truoc = Some w1
    /\ (({[1%positive := enriched (Row (Str TONG_CONG_TAI_SAN) (Num 200) (Num 300))
                           example_vi]} : heap) !!! 1%positive)
         !! ty_trong_nam_sau = Some w2
    /\ forall i r, example_vi !! i = Some r ->
         w1 !! i
         = Some (Num (coerce (prior r) / safeDivisor (coerce (prior a)) * 100))
         /\ w2 !! i
            = Some (Num (coerce (current r) / safeDivisor (coerce (current a)) * 100)).
Proof.
  apply (shares_of_first_anchor 1 {[1%positive := table example_vi]} _ example_vi 1).
  - reflexivity.
  - vm_compute. reflexivity.
Defined.

(** C8, as the program has it: the lookup ignores letter case and matches
    on substring, so the label "TỔNG CỘNG TÀI SẢN (A+B)" is matched by the
    term in either case; its row is the anchor when no earlier row matches. *)
Theorem anchor_lookup df (h : heap) rows k a :
  h !! df = Some (table rows) ->
  rows !! k = Some a ->
  label a = Str (utf8 "TỔNG CỘNG TÀI SẢN (A+B)") ->
  (forall j b, (j < k)%nat -> rows !! j = Some b ->
     str_contains TONG_CONG_TAI_SAN (label b) = false) ->
  str_contains (utf8 "tổng cộng tài sản") (label a) = true
  /\ (forall c, str_contains (utf8 "tổng cộng tài sản") c
                = str_contains TONG_CONG_TAI_SAN c)
  /\ exists h' w1 w2,
       process_financial_data df h = (h', Ok df)
       /\ (h' !!! df) !! ty_trong_nam_truoc = Some w1
       /\ (h' !!! df) !! ty_trong_nam_sau = Some w2
       /\ forall i r, rows !! i = Some r ->
            w1 !! i
            = Some (Num (coerce (prior r) / safeDivisor (coerce (prior a)) * 100))
            /\ w2 !! i
               = Some (Num (coerce (current r)
                            / safeDivisor (coerce (current a)) * 100)).
Proof.
  intros Hh Hk Hl Hmin.
  assert (Hfold : forall c, str_contains (utf8 "tổng cộng tài sản") c
                            = str_contains TONG_CONG_TAI_SAN c).
  { intros [s|x]; [|reflexivity]. cbn [str_contains].
    apply search_fold; reflexivity. }
  assert (Ha : str_contains TONG_CONG_TAI_SAN (label a) = true)
    by (rewrite Hl; reflexivity).
  split; [rewrite Hfold; exact Ha|]. split; [exact Hfold|].
  rewrite (process_financial_data_run _ _ _ Hh).
  rewrite (first_find (is_anchor TONG_CONG_TAI_SAN) rows k a Hk Ha Hmin).
  do 3 eexists. split; [reflexivity|]. rewrite lookup_total_insert_eq.
  split; [frame_lookup|]. split; [frame_lookup|].
  intros i r Hi. split.
  - apply (lookup_map_row (fun r => Num (priorSharePct a r)) _ _ _ Hi).
  - apply (lookup_map_row (fun r => Num (currentSharePct a r)) _ _ _ Hi).
Qed.

Lemma anchor_lookup_witness :
  str_contains (utf8 "tổng cộng tài sản") (Str (utf8 "TỔNG CỘNG TÀI SẢN (A+B)")) = true
  /\ (forall c, str_contains (utf8 "tổng cộng tài sản") c
                = str_contains TONG_CONG_TAI_SAN c)
  /\ exists (h' : heap) w1 w2,
       process_financial_data 1 {[1%positive := table example_a_plus_b]}
       = (h', Ok 1%positive)
       /\ (h' !!! 1%positive) !! ty_trong_nam_truoc = Some w1
       /\ (h' !!! 1%positive) !! ty_trong_nam_sau = Some w2
       /\ forall i r, example_a_plus_b !! i = Some r ->
            w1 !! i = Some (Num (coerce (prior r) / 200 * 100))
            /\ w2 !! i = Some (Num (coerce (current r) / 300 * 100)).
Proof.
  apply (anchor_lookup 1 {[1%positive := table example_a_plus_b]} example_a_plus_b 1
           (Row (Str (utf8 "TỔNG CỘNG TÀI SẢN (A+B)")) (Num 200) (Num 300))).
  - reflexivity.
  - reflexivity.
  - reflexivity.
  - intros [|j] b Hj; [|lia]. intros [= <-]. reflexivity.
Defined.

(** C8 as stated fails: when an earlier label also contains the term, that
    earlier row is the anchor; the share of the "(A+B)" row is then 200. *)
Lemma anchor_is_first_match :
  exists h',
    process_financial_data 1 {[1%positive := table example_two_totals]}
    = (h', Ok 1%positive)
    /\ (h' !!! 1%positive) !! ty_trong_nam_truoc = Some [Num 100; Num 200]
    /\ (h' !!! 1%positive) !! ty_trong_nam_sau = Some [Num 100; Num 200].
Proof. eexists. repeat split; vm_compute; reflexivity. Qed.

(** C9: a row whose coerced prior-year and current-year values are both zero
    has growth zero, not NaN. *)
Theorem growth_of_zero_row df (h h' : heap) rows res i r :
  h !! df = Some (table rows) ->
  process_financial_data df h = (h', Ok res) ->
  rows !! i = Some r ->
  (coerce (prior r) =? 0) = true ->
  (coerce (current r) =? 0) = true ->
  exists g x,
    (h' !!! res) !! toc_do_tang_truong = Some g
    /\ g !! i = Some (Num x)
    /\ x = (coerce (current r) - coerce (prior r)) / 1e-9 * 100
    /\ (x =? 0) = true
    /\ is_nan x = false.
Proof.
  intros Hh Hrun Hi Hp Hc.
  destruct (process_financial_data_Ok _ _ _ _ _ Hh Hrun) as (a & Hf & -> & ->).
  rewrite lookup_total_insert_eq.
  destruct (growth_zero_zero _ _ Hp Hc) as [Hz Hn].
  do 2 eexists. split; [frame_lookup|].
  rewrite (lookup_map_row (fun r => Num (growthPct r)) _ _ _ Hi).
  unfold growthPct, safeDivisor. rewrite Hp.
  split; [reflexivity|]. split; [reflexivity|]. split; assumption.
Qed.

Lemma growth_of_zero_row_witness :
  exists g x,
    (({[1%positive := enriched (Row (Str TONG_CONG_TAI_SAN) (Num 200) (Num 300))
                        example_blank]} : heap) !!! 1%positive)
      !! toc_do_tang_truong = Some g
    /\ g !! 1%nat = Some (Num x)
    /\ x = 0
    /\ (x =? 0) = true
    /\ is_nan x = false.
Proof.
  apply (growth_of_zero_row 1 {[1%positive := table example_blank]} _
           example_blank 1 1
           (Row (Str (utf8 "Ghi chú")) (Str (utf8 "-")) (Num nan))).
  - reflexivity.
  - vm_compute. reflexivity.
  - reflexivity.
  - reflexivity.
  - reflexivity.
Defined.

(** C10: on a table with a total-assets row the call succeeds and returns
    the frame it was given, with the label column as it was, the three input
    columns and exactly three more, and every column as long as the table. *)
Theorem shape_preserved df (h : heap) rows a :
  h !! df = Some (table rows) ->
  In a rows -> str_contains TONG_CONG_TAI_SAN (label a) = true ->
  exists h' fr,
    process_financial_data df h = (h', Ok df)
    /\ h' !! df = Some fr
    /\ fr !! chi_tieu = Some (map label rows)
    /\ dom (table rows) = {[chi_tieu; nam_truoc; nam_sau]}
    /\ dom fr = dom (table rows)
                ∪ {[toc_do_tang_truong; ty_trong_nam_truoc; ty_trong_nam_sau]}
    /\ NoDup [chi_tieu; nam_truoc; nam_sau;
              toc_do_tang_truong; ty_trong_nam_truoc; ty_trong_nam_sau]
    /\ forall col s, fr !! col = Some s -> length s = length rows.
Proof.
  intros Hh Hin Ha. rewrite (process_financial_data_run _ _ _ Hh).
  destruct (find_match (is_anchor TONG_CONG_TAI_SAN) rows a Hin Ha) as [b ->].
  assert (Hdom : dom (table rows) = ({[chi_tieu; nam_truoc; nam_sau]} : gset string)).
  { unfold table. rewrite !dom_insert_L, dom_empty_L. set_solver. }
  do 2 eexists. split; [reflexivity|]. split; [apply lookup_insert_eq|].
  split; [frame_lookup|]. split; [exact Hdom|]. split; [|split].
  - unfold enriched, with_growth, coerced. rewrite !dom_insert_L, Hdom. set_solver.
  - apply (bool_decide_unpack _). vm_compute. exact I.
  - intros col s. unfold enriched, with_growth, coerced, table.
    rewrite !lookup_insert. repeat case_decide; intros [= <-];
      try apply length_map. 
Qed.

Lemma shape_preserved_witness :
  exists (h' : heap) (fr : frame),
    process_financial_data 1 {[1%positive := table example_vi]} = (h', Ok 1%positive)
    /\ h' !! 1%positive = Some fr
    /\ fr !! chi_tieu = Some (map label example_vi)
    /\ dom (table example_vi) = {[chi_tieu; nam_truoc; nam_sau]}
    /\ dom fr = dom (table example_vi)
                ∪ {[toc_do_tang_truong; ty_trong_nam_truoc; ty_trong_nam_sau]}
    /\ NoDup [chi_tieu; nam_truoc; nam_sau;
              toc_do_tang_truong; ty_trong_nam_truoc; ty_trong_nam_sau]
    /\ forall col s, fr !! col = Some s -> length s = length example_vi.
Proof.
  apply (shape_preserved 1 {[1%positive := table example_vi]} example_vi
           (Row (Str TONG_CONG_TAI_SAN) (Num 200) (Num 300))).
  - reflexivity.
  - right. right. left. reflexivity.
  - reflexivity.
Defined.

(** * Further properties of the program *)

Ltac lookup_in H :=
  unfold enrich_in, grow_in, coerce_in;
  repeat first [ rewrite lookup_insert_eq
               | rewrite lookup_insert_ne by col_ne ];
  first [ reflexivity | apply H ].

Lemma process_financial_data_run_in df (h : heap) (fr : frame) rows :
  h !! df = Some fr -> holds rows fr ->
  process_financial_data df h
  = match List.find (is_anchor TONG_CONG_TAI_SAN) rows with
    | Some a => (<[df := enrich_in a rows fr]> h, Ok df)
    | None => (<[df := grow_in rows fr]> h, Raise missing_anchor)
    end.
Proof.
  intros Hh (Hl & Hp & Hc). unfold process_financial_data.
  rewrite bind_run. unfold numeric_cols. cbn [for_].
  rewrite bind_run, bind_run, (getitem_run _ _ _ _ _ Hh Hp).
  rewrite (setitem_run _ _ _ _ _ Hh).
  rewrite bind_run, bind_run.
  erewrite getitem_run; [| apply lookup_insert_eq | lookup_in Hc].
  erewrite setitem_run; [| apply lookup_insert_eq].
  rewrite insert_insert_eq, !map_map.
  change (<[nam_sau := _]> (<[nam_truoc := _]> fr)) with (coerce_in rows fr).
  cbn [mret M_ret].
  assert (H1 : <[df := coerce_in rows fr]> h !! df = Some (coerce_in rows fr))
    by apply lookup_insert_eq.
  rewrite bind_run, (getitem_run _ _ _ _ _ H1) by lookup_in Hc.
  rewrite bind_run, (getitem_run _ _ _ _ _ H1) by lookup_in Hp.
  rewrite bind_run. unfold lift at 1. rewrite series_op_map.
  rewrite bind_run, (getitem_run _ _ _ _ _ H1) by lookup_in Hp.
  rewrite bind_run. unfold lift at 1. rewrite replace_zero_map, series_op_map.
  rewrite bind_run. unfold lift at 1. rewrite series_scalar_map.
  rewrite bind_run, (setitem_run _ _ _ _ _ H1), insert_insert_eq.
  change (<[toc_do_tang_truong := _]> (coerce_in rows fr)) with (grow_in rows fr).
  assert (H2 : <[df := grow_in rows fr]> h !! df = Some (grow_in rows fr))
    by apply lookup_insert_eq.
  rewrite bind_run, (getitem_run _ _ _ _ _ H2) by lookup_in Hl.
  rewrite bind_run, (getitem_mask_run _ _ _ _ H2), map_map.
  change (fun x => str_contains TONG_CONG_TAI_SAN (label x))
    with (is_anchor TONG_CONG_TAI_SAN).
  rewrite (frame_empty_select _ rows _ chi_tieu label) by lookup_in Hl.
  destruct (List.find (is_anchor TONG_CONG_TAI_SAN) rows) as [a|] eqn:Hf;
    [|reflexivity].
  destruct (filter_find _ _ _ Hf) as [l' Hl'].
  rewrite bind_run. unfold lift at 1.
  rewrite (column_select _ rows _ nam_truoc (fun r => Num (coerce (prior r))))
    by lookup_in Hp.
  rewrite Hl'. cbn [map mbind result_bind iloc0].
  rewrite bind_run. unfold lift at 1.
  rewrite (column_select _ rows _ nam_sau (fun r => Num (coerce (current r))))
    by lookup_in Hc.
  rewrite Hl'. cbn [map mbind result_bind iloc0].
  rewrite !divisor_safe.
  rewrite bind_run, (getitem_run _ _ _ _ _ H2) by lookup_in Hp.
  rewrite bind_run. unfold lift at 1. rewrite series_scalar_map.
  rewrite bind_run. unfold lift at 1. rewrite series_scalar_map.
  rewrite bind_run, (setitem_run _ _ _ _ _ H2), insert_insert_eq.
  match goal with |- context [<[df := ?fr']> h] =>
    assert (H3 : <[df := fr']> h !! df = Some fr') by apply lookup_insert_eq
  end.
  rewrite bind_run, (getitem_run _ _ _ _ _ H3) by lookup_in Hc.
  rewrite bind_run. unfold lift at 1. rewrite series_scalar_map.
  rewrite bind_run. unfold lift at 1. rewrite series_scalar_map.
  rewrite bind_run, (setitem_run _ _ _ _ _ H3), insert_insert_eq.
  reflexivity.
Qed.

Lemma coerce_idem c : coerce (Num (coerce c)) = coerce c.
Proof.
  unfold coerce at 1, fillna. cbn [to_numeric]. rewrite coerce_not_nan.
  reflexivity.
Qed.

Lemma growthPct_coerced r : growthPct (coerced_row r) = growthPct r.
Proof. unfold growthPct. cbn [coerced_row prior current]. rewrite !coerce_idem. reflexivity. Qed.

Lemma priorSharePct_coerced a r :
  priorSharePct (coerced_row a) (coerced_row r) = priorSharePct a r.
Proof. unfold priorSharePct. cbn [coerced_row prior]. rewrite !coerce_idem. reflexivity. Qed.

Lemma currentSharePct_coerced a r :
  currentSharePct (coerced_row a) (coerced_row r) = currentSharePct a r.
Proof. unfold currentSharePct. cbn [coerced_row current]. rewrite !coerce_idem. reflexivity. Qed.

Lemma find_coerced pat rows :
  List.find (is_anchor pat) (map coerced_row rows)
  = coerced_row <$> List.find (is_anchor pat) rows.
Proof.
  induction rows as [|r rows IH]; [reflexivity|].
  cbn [map List.find]. change (is_anchor pat (coerced_row r)) with (is_anchor pat r).
  destruct (is_anchor pat r); [reflexivity | exact IH].
Qed.

Lemma holds_enriched a rows : holds (map coerced_row rows) (enriched a rows).
Proof.
  unfold holds. rewrite !map_map. split; [|split]; frame_lookup.
Qed.

Lemma enrich_in_enriched a rows :
  enrich_in (coerced_row a) (map coerced_row rows) (enriched a rows)
  = enriched a rows.
Proof.
  unfold enrich_in, grow_in, coerce_in. rewrite !map_map.
  assert (E1 : map (fun r => Num (coerce (prior (coerced_row r)))) rows
               = map (fun r => Num (coerce (prior r))) rows)
    by (apply map_ext; intros r; cbn; rewrite coerce_idem; reflexivity).
  assert (E2 : map (fun r => Num (coerce (current (coerced_row r)))) rows
               = map (fun r => Num (coerce (current r))) rows)
    by (apply map_ext; intros r; cbn; rewrite coerce_idem; reflexivity).
  assert (E3 : map (fun r => Num (growthPct (coerced_row r))) rows
               = map (fun r => Num (growthPct r)) rows)
    by (apply map_ext; intros r; rewrite growthPct_coerced; reflexivity).
  assert (E4 : map (fun r => Num (priorSharePct (coerced_row a) (coerced_row r))) rows
               = map (fun r => Num (priorSharePct a r)) rows)
    by (apply map_ext; intros r; rewrite priorSharePct_coerced; reflexivity).
  assert (E5 : map (fun r => Num (currentSharePct (coerced_row a) (coerced_row r))) rows
               = map (fun r => Num (currentSharePct a r)) rows)
    by (apply map_ext; intros r; rewrite currentSharePct_coerced; reflexivity).
  rewrite E1, E2, E3, E4, E5.
  rewrite (insert_id (enriched a rows) nam_truoc) by frame_lookup.
  rewrite (insert_id (enriched a rows) nam_sau) by frame_lookup.
  rewrite (insert_id (enriched a rows) toc_do_tang_truong) by frame_lookup.
  rewrite (insert_id (enriched a rows) ty_trong_nam_truoc) by frame_lookup.
  apply insert_id. frame_lookup.
Qed.

(** X2: processing a frame that has been processed changes nothing. *)
Theorem process_financial_data_again df (h h1 : heap) rows :
  h !! df = Some (table rows) ->
  process_financial_data df h = (h1, Ok df) ->
  process_financial_data df h1 = (h1, Ok df).
Proof.
  intros Hh Hrun.
  destruct (process_financial_data_Ok _ _ _ _ _ Hh Hrun) as (a & Hf & _ & ->).
  rewrite (process_financial_data_run_in df _ (enriched a rows)
             (map coerced_row rows) (lookup_insert_eq _ _ _) (holds_enriched a rows)).
  rewrite find_coerced, Hf. cbn [fmap option_fmap option_map].
  rewrite enrich_in_enriched, insert_insert_eq. reflexivity.
Qed.

Lemma getitem_missing df col (h : heap) (fr : frame) :
  h !! df = Some fr -> fr !! col = None ->
  getitem df col h = (h, Raise (KeyError col)).
Proof.
  intros Hh Hc. unfold getitem. rewrite (lookup_total_correct _ _ _ Hh), Hc.
  reflexivity.
Qed.

Lemma series_op_numbers {A B : Type} op (f : A -> float) (g : B -> float) xs ys :
  exists zs,
    series_op op (map (fun x => Num (f x)) xs) (map (fun y => Num (g y)) ys)
    = Ok (map (fun z => Num z) zs).
Proof.
  revert ys. induction xs as [|x xs IH]; intros ys; [exists []; reflexivity|].
  destruct ys as [|y ys]; [exists []; reflexivity|].
  destruct (IH ys) as [zs Hzs]. exists (op (f x) (g y) :: zs).
  cbn [map series_op arith]. rewrite Hzs. reflexivity.
Qed.

Lemma missing_column_cases df (h : heap) (fr : frame) :
  h !! df = Some fr ->
  (fr !! nam_truoc = None ->
     process_financial_data df h = (h, Raise (KeyError nam_truoc)))
  /\ (forall P, fr !! nam_truoc = Some P -> fr !! nam_sau = None ->
        process_financial_data df h
        = (<[df := <[nam_truoc := map (fun c => Num (coerce c)) P]> fr]> h,
           Raise (KeyError nam_sau)))
  /\ (forall P C, fr !! nam_truoc = Some P -> fr !! nam_sau = Some C ->
        fr !! chi_tieu = None ->
        exists h', process_financial_data df h = (h', Raise (KeyError chi_tieu))).
Proof.
  intros Hh. unfold process_financial_data, numeric_cols. cbn [for_].
  split; [|split].
  - intros Hp. rewrite !bind_run, (getitem_missing _ _ _ _ Hh Hp). reflexivity.
  - intros P Hp Hc.
    rewrite !bind_run, (getitem_run _ _ _ _ _ Hh Hp), (setitem_run _ _ _ _ _ Hh).
    rewrite !bind_run.
    erewrite getitem_missing;
      [reflexivity | apply lookup_insert_eq | rewrite lookup_insert_ne by col_ne; exact Hc].
  - intros P C Hp Hc Hl.
    destruct (series_op_numbers PrimFloat.sub coerce coerce C P) as [ds Hds].
    destruct (series_op_numbers PrimFloat.div (fun z => z)
                (fun c => safeDivisor (coerce c)) ds P) as [qs Hqs].
    eexists.
    rewrite bind_run, bind_run, bind_run.
    rewrite (getitem_run _ _ _ _ _ Hh Hp), (setitem_run _ _ _ _ _ Hh).
    rewrite bind_run, bind_run.
    erewrite getitem_run;
      [| apply lookup_insert_eq | rewrite lookup_insert_ne by col_ne; exact Hc].
    erewrite setitem_run; [| apply lookup_insert_eq].
    rewrite insert_insert_eq. cbn [mret M_ret].
    match goal with |- context [<[df := ?fr1]> h] =>
      assert (H1 : <[df := fr1]> h !! df = Some fr1) by apply lookup_insert_eq
    end.
    rewrite bind_run, (getitem_run _ _ _ _ _ H1) by apply lookup_insert_eq.
    rewrite bind_run, (getitem_run df nam_truoc _ _ _ H1 ltac:(
      rewrite lookup_insert_ne by col_ne; apply lookup_insert_eq)).
    rewrite bind_run. unfold lift at 1. rewrite Hds.
    rewrite bind_run, (getitem_run df nam_truoc _ _ _ H1 ltac:(
      rewrite lookup_insert_ne by col_ne; apply lookup_insert_eq)).
    rewrite (replace_zero_map coerce P).
    rewrite bind_run. unfold lift at 1. rewrite Hqs.
    rewrite bind_run. unfold lift at 1.
    rewrite (series_scalar_map PrimFloat.mul (fun x => x) 100 qs).
    rewrite bind_run, (setitem_run _ _ _ _ _ H1), insert_insert_eq.
    rewrite bind_run. erewrite getitem_missing;
      [reflexivity | apply lookup_insert_eq |].
    rewrite !lookup_insert_ne by col_ne. exact Hl.
Qed.

(** X1: a frame that lacks one of the three columns makes
    [process_financial_data] raise [KeyError] for the first one it misses,
    in the order 'Năm trước', 'Năm sau', 'Chỉ tiêu'.  Nothing has changed
    when that is 'Năm trước'; 'Năm trước' has been coerced in place when it
    is 'Năm sau'. *)
Theorem missing_column_raises df (h : heap) (fr : frame) col :
  h !! df = Some fr ->
  List.find (lacks fr) [nam_truoc; nam_sau; chi_tieu] = Some col ->
  exists h',
    process_financial_data df h = (h', Raise (KeyError col))
    /\ (col = nam_truoc -> h' = h)
    /\ (col = nam_sau ->
          exists P, fr !! nam_truoc = Some P
            /\ h' = <[df := <[nam_truoc := map (fun c => Num (coerce c)) P]> fr]> h).
Proof.
  intros Hh Hfind. destruct (missing_column_cases df h fr Hh) as (H1 & H2 & H3).
  cbn [List.find] in Hfind. unfold lacks in Hfind.
  destruct (fr !! nam_truoc) as [P|] eqn:Hp.
  - destruct (fr !! nam_sau) as [C|] eqn:Hc.
    + destruct (fr !! chi_tieu) as [L|] eqn:Hl; [discriminate|].
      injection Hfind as <-. destruct (H3 P C eq_refl eq_refl eq_refl) as [h' Hrun].
      exists h'. split; [exact Hrun|]. split; intros [=].
    + injection Hfind as <-. eexists. split; [apply (H2 P eq_refl eq_refl)|].
      split; [intros [=]|]. intros _. exists P. split; reflexivity.
  - injection Hfind as <-. exists h. split; [apply H1; reflexivity|].
    split; [reflexivity|]. intros [=].
Qed.

Lemma Forall_coerced {A : Type} (f : A -> cell) (l : list A) :
  Forall is_number (map (fun r => Num (coerce (f r))) l).
Proof.
  apply Forall_forall. intros c Hc. apply list_elem_of_In, in_map_iff in Hc.
  destruct Hc as (r & <- & _). eexists. split; [reflexivity | apply coerce_not_nan].
Qed.

(** X3: whatever the outcome, a call on a frame of the three columns leaves both
    numeric columns with one number per row, none of them NaN. *)
Theorem numeric_columns_are_numbers df (h h' : heap) rows res :
  h !! df = Some (table rows) ->
  process_financial_data df h = (h', res) ->
  exists (fr : frame) P C,
    h' !! df = Some fr
    /\ fr !! nam_truoc = Some P /\ fr !! nam_sau = Some C
    /\ length P = length rows /\ length C = length rows
    /\ Forall is_number P /\ Forall is_number C.
Proof.
  intros Hh Hrun. rewrite (process_financial_data_run _ _ _ Hh) in Hrun.
  destruct (List.find (is_anchor TONG_CONG_TAI_SAN) rows) as [a|];
    injection Hrun as <- <-; do 3 eexists;
    (split; [apply lookup_insert_eq|]);
    (split; [frame_lookup|]); (split; [frame_lookup|]);
    (split; [apply length_map|]); (split; [apply length_map|]);
    split; apply Forall_coerced.
Qed.


Lemma find_app_l {A : Type} (p : A -> bool) l k a :
  List.find p l = Some a -> List.find p (l ++ k) = Some a.
Proof.
  induction l as [|r l IH]; [discriminate|].
  cbn [app List.find]. destruct (p r); [trivial | exact IH].
Qed.

Lemma lookup_map_app {A B : Type} (g : A -> B) (l k : list A) i :
  (i < length l)%nat -> map g (l ++ k) !! i = map g l !! i.
Proof.
  intros Hi. rewrite map_app. apply lookup_app_l. rewrite length_map. exact Hi.
Qed.

(** X5: line items added below a table that has its total-assets row change
    nothing in the rows above them: every column of the processed longer
    table agrees, row by row, with the processed shorter one. *)
Theorem rows_below_change_nothing df1 df2 (h1 h1' h2 : heap) rows more res :
  h1 !! df1 = Some (table rows) ->
  h2 !! df2 = Some (table (rows ++ more)) ->
  process_financial_data df1 h1 = (h1', Ok res) ->
  exists h2',
    process_financial_data df2 h2 = (h2', Ok df2)
    /\ forall col i, (i < length rows)%nat ->
         ((h2' !!! df2) !! col) ≫= (fun s => s !! i)
         = ((h1' !!! res) !! col) ≫= (fun s => s !! i).
Proof.
  intros H1 H2 Hrun.
  destruct (process_financial_data_Ok _ _ _ _ _ H1 Hrun) as (a & Hf & -> & ->).
  rewrite (process_financial_data_run _ _ _ H2), (find_app_l _ _ more _ Hf).
  eexists. split; [reflexivity|]. intros col i Hi.
  rewrite !lookup_total_insert_eq.
  unfold enriched, with_growth, coerced, table.
  rewrite !lookup_insert. repeat case_decide; cbn [mbind option_bind];
    try apply (lookup_map_app _ rows more i Hi).
  rewrite !lookup_empty. reflexivity.
Qed.

Lemma zero_over_epsilon p : (p =? 0) = true -> (p / 1e-9 * 100 =? 0) = true.
Proof. intros Hp. destruct (eqb_zero_inv _ Hp) as [-> | ->]; reflexivity. Qed.

(** X6: when the total-assets row itself holds zero for a year, its own share of
    that year is 0 (zero over the epsilon), not 100. *)
Theorem zero_anchor_has_zero_share df (h h' : heap) rows res k a :
  h !! df = Some (table rows) ->
  process_financial_data df h = (h', Ok res) ->
  rows !! k = Some a ->
  List.find (is_anchor TONG_CONG_TAI_SAN) rows = Some a ->
  ((coerce (prior a) =? 0) = true ->
     exists w x, (h' !!! res) !! ty_trong_nam_truoc = Some w
                 /\ w !! k = Some (Num x) /\ (x =? 0) = true)
  /\ ((coerce (current a) =? 0) = true ->
        exists w x, (h' !!! res) !! ty_trong_nam_sau = Some w
                    /\ w !! k = Some (Num x) /\ (x =? 0) = true).
Proof.
  intros Hh Hrun Hk Hf.
  destruct (process_financial_data_Ok _ _ _ _ _ Hh Hrun) as (a' & Hf' & -> & ->).
  rewrite Hf in Hf'. injection Hf' as <-. rewrite lookup_total_insert_eq.
  split; intros Hz; do 2 eexists.
  - split; [frame_lookup|].
    split; [apply (lookup_map_row (fun r => Num (priorSharePct a r)) _ _ _ Hk)|].
    unfold priorSharePct, safeDivisor. rewrite Hz. apply zero_over_epsilon, Hz.
  - split; [frame_lookup|].
    split; [apply (lookup_map_row (fun r => Num (currentSharePct a r)) _ _ _ Hk)|].
    unfold currentSharePct, safeDivisor. rewrite Hz. apply zero_over_epsilon, Hz.
Qed.

(** ** What [str.contains] accepts *)



Lemma tang_truong_tsnh_run df (h : heap) a rows :
  h !! df = Some (enriched a rows) ->
  tang_truong_tsnh df h
  = (h, match List.find (is_anchor TAI_SAN_NGAN_HAN) rows with
        | Some ts => Ok (Num (growthPct ts))
        | None => Raise IndexError
        end).
Proof.
  intros Hh. unfold tang_truong_tsnh.
  apply (first_match_run df TAI_SAN_NGAN_HAN toc_do_tang_truong
           (fun r => Num (growthPct r)) h (enriched a rows) rows Hh);
    frame_lookup.
Qed.

(** X8: the growth for the summary is read outside the [try] of the ratio block:
    on a processed frame without a current-assets row the block ends with
    both ratios "N/A", and the read that follows raises [IndexError]. *)
Theorem growth_read_raises_after_block df (h h' : heap) rows res :
  h !! df = Some (table rows) ->
  process_financial_data df h = (h', Ok res) ->
  List.find (is_anchor TAI_SAN_NGAN_HAN) rows = None ->
  thanh_toan_hien_hanh res h' = (h', Ok (NA, NA))
  /\ tang_truong_tsnh res h' = (h', Raise IndexError).
Proof.
  intros Hh Hrun Hts.
  destruct (process_financial_data_Ok _ _ _ _ _ Hh Hrun) as (a & Hf & -> & ->).
  rewrite (thanh_toan_hien_hanh_run df _ (enriched a rows) rows
             (lookup_insert_eq _ _ _) (processed_enriched a rows)).
  rewrite (tang_truong_tsnh_run df _ a rows (lookup_insert_eq _ _ _)), Hts.
  split; reflexivity.
Qed.





Lemma paired_sidebar session prompt r msgs :
  paired msgs -> paired (sidebar session prompt r msgs).
Proof.
  intros [Hlen Hrole]. unfold sidebar.
  destruct session; [|split; assumption].
  destruct prompt as [[|c p]|]; try (split; assumption).
  assert (Hpair : forall reply_text,
            paired ((msgs ++ [Message "user" (String c p)])
                      ++ [Message "assistant" reply_text])).
  { intros t. rewrite <- app_assoc. cbn [app]. split.
    - rewrite length_app. cbn [length]. rewrite Nat.add_comm.
      cbn [Nat.add Nat.even]. exact Hlen.
    - intros i m Hi. destruct (decide (i < length msgs)%nat) as [Hlt|Hge].
      + rewrite lookup_app_l in Hi by exact Hlt. apply Hrole, Hi.
      + rewrite lookup_app_r in Hi by lia.
        replace i with (length msgs + (i - length msgs))%nat by lia.
        rewrite Nat.even_add, Hlen.
        destruct (i - length msgs)%nat as [|[|j]]; cbn in Hi.
        * injection Hi as <-. reflexivity.
        * injection Hi as <-. reflexivity.
        * discriminate Hi. }
  destruct r; apply Hpair.
Qed.

(** X11: whatever is asked and whatever the service does, the history stays a
    sequence of user/assistant pairs: a failed call still adds its reply. *)
Theorem history_paired session runs : paired (history session runs).
Proof.
  unfold history.
  assert (H0 : paired []) by (split; [reflexivity | intros i m Hi; discriminate Hi]).
  revert H0. generalize (@nil message).
  induction runs as [|run runs IH]; intros msgs Hm; [exact Hm|].
  cbn [foldl]. apply IH, paired_sidebar, Hm.
Qed.

(** A run never rewrites the history: what was there stays in front. *)
Theorem sidebar_extends session prompt r msgs :
  exists added,
    sidebar session prompt r msgs = msgs ++ added
    /\ (added = [] \/ exists p a, added = [Message "user" p; Message "assistant" a]
                                  /\ prompt = Some p).
Proof.
  unfold sidebar. destruct session; [|exists []; rewrite app_nil_r; auto].
  destruct prompt as [[|c p]|]; try solve [exists []; rewrite app_nil_r; auto].
  destruct r as [t|e]; cbv beta iota zeta; eexists; rewrite <- app_assoc;
    (split; [reflexivity|]); right; eauto.
Qed.

Lemma process_financial_data_again_witness :
  process_financial_data 1
    {[1%positive := enriched (Row (Str TONG_CONG_TAI_SAN) (Num 200) (Num 300))
                      example_vi]}
  = ({[1%positive := enriched (Row (Str TONG_CONG_TAI_SAN) (Num 200) (Num 300))
                       example_vi]}, Ok 1%positive).
Proof.
  apply (process_financial_data_again 1 {[1%positive := table example_vi]} _
           example_vi).
  - reflexivity.
  - vm_compute. reflexivity.
Defined.

Lemma missing_column_raises_witness :
  exists h',
    process_financial_data 1 {[1%positive := frame_no_nam_sau]}
    = (h', Raise (KeyError nam_sau))
    /\ (nam_sau = nam_truoc -> h' = {[1%positive := frame_no_nam_sau]})
    /\ (nam_sau = nam_sau ->
          exists P, frame_no_nam_sau !! nam_truoc = Some P
            /\ h' = <[1%positive := <[nam_truoc := map (fun c => Num (coerce c)) P]>
                                      frame_no_nam_sau]>
                      {[1%positive := frame_no_nam_sau]}).
Proof.
  apply (missing_column_raises 1 {[1%positive := frame_no_nam_sau]}
           frame_no_nam_sau nam_sau); reflexivity.
Defined.

Lemma numeric_columns_are_numbers_witness :
  exists (fr : frame) P C,
    ({[1%positive := enriched (Row (Str TONG_CONG_TAI_SAN) (Num 200) (Num 300))
                       example_blank]} : heap) !! 1%positive = Some fr
    /\ fr !! nam_truoc = Some P /\ fr !! nam_sau = Some C
    /\ length P = length example_blank /\ length C = length example_blank
    /\ Forall is_number P /\ Forall is_number C.
Proof.
  apply (numeric_columns_are_numbers 1 {[1%positive := table example_blank]} _
           example_blank (Ok 1%positive)).
  - reflexivity.
  - vm_compute. reflexivity.
Defined.


Lemma rows_below_change_nothing_witness :
  exists h2',
    process_financial_data 2
      {[2%positive := table (example_vi ++ example_new_item)]}
    = (h2', Ok 2%positive)
    /\ forall col i, (i < length example_vi)%nat ->
         ((h2' !!! 2%positive) !! col) ≫= (fun s => s !! i)
         = ((({[1%positive := enriched (Row (Str TONG_CONG_TAI_SAN) (Num 200) (Num 300))
                                example_vi]} : heap) !!! 1%positive) !! col)
             ≫= (fun s => s !! i).
Proof.
  apply (rows_below_change_nothing 1 2 {[1%positive := table example_vi]} _
           {[2%positive := table (example_vi ++ example_new_item)]}
           example_vi example_new_item 1).
  - reflexivity.
  - reflexivity.
  - vm_compute. reflexivity.
Defined.

Lemma zero_anchor_has_zero_share_witness :
  exists w x,
    (({[1%positive := enriched (Row (Str TONG_CONG_TAI_SAN) (Num 0) (Num 300))
                        example_zero_total]} : heap) !!! 1%positive)
      !! ty_trong_nam_truoc = Some w
    /\ w !! 0%nat = Some (Num x) /\ (x =? 0) = true.
Proof.
  apply (zero_anchor_has_zero_share 1 {[1%positive := table example_zero_total]} _
           example_zero_total 1 0
           (Row (Str TONG_CONG_TAI_SAN) (Num 0) (Num 300))).
  - reflexivity.
  - vm_compute. reflexivity.
  - reflexivity.
  - reflexivity.
  - reflexivity.
Defined.

Lemma growth_read_raises_after_block_witness :
  thanh_toan_hien_hanh 1
    {[1%positive := enriched (Row (Str TONG_CONG_TAI_SAN) (Num 200) (Num 300))
                      example_new_item]}
  = ({[1%positive := enriched (Row (Str TONG_CONG_TAI_SAN) (Num 200) (Num 300))
                       example_new_item]}, Ok (NA, NA))
  /\ tang_truong_tsnh 1
       {[1%positive := enriched (Row (Str TONG_CONG_TAI_SAN) (Num 200) (Num 300))
                         example_new_item]}
     = ({[1%positive := enriched (Row (Str TONG_CONG_TAI_SAN) (Num 200) (Num 300))
                          example_new_item]}, Raise IndexError).
Proof.
  apply (growth_read_raises_after_block 1 {[1%positive := table example_new_item]} _
           example_new_item 1).
  - reflexivity.
  - vm_compute. reflexivity.
  - reflexivity.
Defined.

